(** * Power calculator: [calculate_power] and [calculate_sample_size]

    A shallow embedding of the two functions of [power_calculator.py] that
    carry the computation of the TeachMichigan power calculator, and the
    properties its specification states about them.

    Numbers.  Python floats are modelled as rationals ([Q]) and every
    arithmetic operation is taken as exact; integers are [Z].  A float
    division by zero raises [ZeroDivisionError], as it does in Python.

    The statsmodels routines.  [TTestIndPower().solve_power] and
    [tt_ind_solve_power] are not code of this program.  A computation is a
    tree that either returns, raises, or asks one of the two routines a
    question and continues with the answer; a [routine] answers the
    questions and may itself raise.

    The script.  Of the code around the two functions the development
    keeps what computes: the loop that fills [results] in the power mode,
    [color_power], and the call and the halving of the sample-size mode.
    The widgets and the rendering are left out. *)

From Stdlib Require Import ZArith QArith Qround Lqa Lia Bool String List.
Import ListNotations.

Local Open Scope Q_scope.

(** ** Python values and exceptions *)

(** A Python exception, identified by the name of its class. *)
Inductive exn : Type :=
| PyExc (name : string).

Definition ZeroDivisionError : exn := PyExc "ZeroDivisionError".
Definition ValueError : exn := PyExc "ValueError".

(** The name the specification gives to the failure it expects for
    [outcome_share = 0].  No statement of the program raises it. *)
Definition DegenerateInputError : exn := PyExc "DegenerateInputError".

Inductive result (A : Type) : Type :=
| Ok (a : A)
| Err (e : exn).
Arguments Ok {A} a.
Arguments Err {A} e.

(** ** The questions asked to statsmodels *)

Inductive alternative : Type := two_sided | larger | smaller.

(** Keyword arguments of [TTestIndPower().solve_power] when it solves for
    the power. *)
Record power_query : Type := mk_power_query {
  pq_effect_size : Q;
  pq_nobs1 : Q;
  pq_ratio : Q;
  pq_alpha : Q;
  pq_alternative : alternative
}.

(** Keyword arguments of [tt_ind_solve_power] when it solves for [nobs1]. *)
Record nobs_query : Type := mk_nobs_query {
  nq_effect_size : Q;
  nq_alpha : Q;
  nq_power : Q;
  nq_ratio : Q;
  nq_alternative : alternative
}.

(** ** Computations *)

Inductive prog (A : Type) : Type :=
| Ret (a : A)
| Raise (e : exn)
| Call_solve_power (q : power_query) (k : Q -> prog A)
| Call_tt_ind_solve_power (q : nobs_query) (k : Q -> prog A).
Arguments Ret {A} a.
Arguments Raise {A} e.
Arguments Call_solve_power {A} q k.
Arguments Call_tt_ind_solve_power {A} q k.

Fixpoint bind {A B : Type} (p : prog A) (f : A -> prog B) : prog B :=
  match p with
  | Ret a => f a
  | Raise e => Raise e
  | Call_solve_power q k => Call_solve_power q (fun v => bind (k v) f)
  | Call_tt_ind_solve_power q k =>
      Call_tt_ind_solve_power q (fun v => bind (k v) f)
  end.

Declare Scope prog_scope.
Delimit Scope prog_scope with prog.
Notation "x <- c ;; k" := (bind c (fun x => k))
  (at level 61, c at next level, right associativity) : prog_scope.

(** The external collaborator: one answer, or one exception, per question. *)
Record routine : Type := mk_routine {
  solve_power : power_query -> result Q;
  tt_ind_solve_power : nobs_query -> result Q
}.

Fixpoint run {A : Type} (R : routine) (p : prog A) : result A :=
  match p with
  | Ret a => Ok a
  | Raise e => Err e
  | Call_solve_power q k =>
      match solve_power R q with
      | Ok v => run R (k v)
      | Err e => Err e
      end
  | Call_tt_ind_solve_power q k =>
      match tt_ind_solve_power R q with
      | Ok v => run R (k v)
      | Err e => Err e
      end
  end.

(** The first question a computation asks about the power, if it asks one
    before anything else happens. *)
Definition asked_power {A : Type} (p : prog A) : option power_query :=
  match p with
  | Call_solve_power q _ => Some q
  | _ => None
  end.

Definition asked_nobs {A : Type} (p : prog A) : option nobs_query :=
  match p with
  | Call_tt_ind_solve_power q _ => Some q
  | _ => None
  end.

(** ** Python arithmetic *)

(** [int(x)] on a float: truncation towards zero. *)
Definition py_int (x : Q) : Z := Z.quot (Qnum x) (Zpos (Qden x)).

(** [np.ceil(x)] followed by [int]. *)
Definition np_ceil (x : Q) : Z := Qceiling x.

(** [a / b] on floats. *)
Definition py_div (a b : Q) : prog Q :=
  if Qeq_bool b 0 then Raise ZeroDivisionError else Ret (a / b).

(** [x > 0]. *)
Definition Qgt0 (x : Q) : bool := negb (Qle_bool x 0).

(** ** The program *)

Local Open Scope prog_scope.

(** Lines 14-21 of [calculate_power]: the effective number of observations
    of one arm.  The source computes it twice, from [n_treatment] and from
    [n_control]. *)
Definition effective_n (n_arm : Z) (students_per_teacher : Z)
    (use_clustering : bool) (icc : Q) : prog Q :=
  if use_clustering && Qgt0 icc then
    let deff := 1 + (inject_Z students_per_teacher - 1) * icc in
    py_div (inject_Z n_arm * inject_Z students_per_teacher) deff
  else
    Ret (inject_Z n_arm * inject_Z students_per_teacher).

Definition calculate_power (n_teachers : Z) (outcome_share effect_size : Q)
    (students_per_teacher : Z) (use_clustering : bool) (icc : Q) : prog Q :=
  let n_treatment := py_int (inject_Z n_teachers * outcome_share) in
  let n_control := n_treatment in
  effective_n_treatment <-
    effective_n n_treatment students_per_teacher use_clustering icc ;;
  effective_n_control <-
    effective_n n_control students_per_teacher use_clustering icc ;;
  power <- Call_solve_power
             {| pq_effect_size := effect_size;
                pq_nobs1 := effective_n_treatment;
                pq_ratio := 1;
                pq_alpha := 5 # 100;
                pq_alternative := two_sided |} Ret ;;
  Ret power.

(** Lines 34-38 of [calculate_sample_size]. *)
Definition sample_size_deff (students_per_teacher : Z)
    (use_clustering : bool) (icc : Q) : Q :=
  if use_clustering && Qgt0 icc then
    1 + (inject_Z students_per_teacher - 1) * icc
  else 1.

Definition calculate_sample_size (effect_size outcome_share : Q)
    (students_per_teacher : Z) (use_clustering : bool) (icc : Q) : prog Z :=
  let deff := sample_size_deff students_per_teacher use_clustering icc in
  n <- Call_tt_ind_solve_power
         {| nq_effect_size := effect_size;
            nq_alpha := 5 # 100;
            nq_power := 8 # 10;
            nq_ratio := 1;
            nq_alternative := two_sided |} Ret ;;
  x <- py_div (n * deff) (inject_Z students_per_teacher * outcome_share) ;;
  let total_teachers := np_ceil x in
  Ret (total_teachers * 2)%Z.

(** The default of the keyword argument [students_per_teacher]. *)
Definition default_students_per_teacher : Z := 22.

Local Close Scope prog_scope.

(** ** A closed-form stand-in for statsmodels

    [stub] answers both questions in closed form, so that the program can be
    run on concrete inputs.  With [x = effect_size^2 * nobs1] its power is
    [alpha + (1 - alpha) * x / (x + c)] for positive [x] and [alpha]
    otherwise; its solver is the exact inverse of that formula.  At
    [alpha = 0.05] and [power = 0.8] the solver gives
    [nobs1 = 15.7 / effect_size^2]. *)

Definition stub_c : Q := 314 # 75.

Definition stub_solve_power (q : power_query) : result Q :=
  let x := pq_effect_size q * pq_effect_size q * pq_nobs1 q in
  if Qle_bool x 0 then Ok (pq_alpha q)
  else Ok (pq_alpha q + (1 - pq_alpha q) * (x / (x + stub_c))).

Definition stub_tt_ind_solve_power (q : nobs_query) : result Q :=
  if Qeq_bool (nq_effect_size q) 0 then Err ValueError
  else Ok (stub_c * (nq_power q - nq_alpha q)
           / ((1 - nq_power q) * (nq_effect_size q * nq_effect_size q))).

Definition stub : routine :=
  {| solve_power := stub_solve_power;
     tt_ind_solve_power := stub_tt_ind_solve_power |}.

(** ** The specification's formulas *)

(** Section 3: effective sample size per arm, with the product
    [n_units * outcome_share] taken as a real number. *)
Definition spec_effective_sample_size (n_units : Z) (outcome_share : Q)
    (units_per_cluster : Z) (design_effect : Q) : Q :=
  inject_Z n_units * outcome_share * inject_Z units_per_cluster
  / design_effect.

(** Section 4.3, steps 3 and 4. *)
Definition spec_total (n deff : Q) (units_per_cluster : Z)
    (outcome_share : Q) : Z :=
  (2 * Qceiling (n * deff / (inject_Z units_per_cluster * outcome_share)))%Z.

(** The two questions the program asks. *)
Definition power_question (effect_size nobs1 : Q) : power_query :=
  {| pq_effect_size := effect_size;
     pq_nobs1 := nobs1;
     pq_ratio := 1;
     pq_alpha := 5 # 100;
     pq_alternative := two_sided |}.

Definition nobs_question (effect_size : Q) : nobs_query :=
  {| nq_effect_size := effect_size;
     nq_alpha := 5 # 100;
     nq_power := 8 # 10;
     nq_ratio := 1;
     nq_alternative := two_sided |}.

(** Section 6 and section 8: what the specification takes for granted of
    the external routine.  From any sample size at which it is defined the
    power is defined and does not decrease as [nobs1] grows, and the
    inverse solve reaches the target power of 0.80 up to [tol]. *)
Record sensible_routine (R : routine) (tol : Q) : Prop := {
  power_monotone :
    forall es a b pa, a <= b ->
      solve_power R (power_question es a) = Ok pa ->
      exists pb, solve_power R (power_question es b) = Ok pb /\ pa <= pb;
  solver_consistent :
    forall es n, tt_ind_solve_power R (nobs_question es) = Ok n ->
      exists p, solve_power R (power_question es n) = Ok p /\
                (8 # 10) - tol <= p
}.


(** ** The script around the two functions *)

(** [np.arange(start, stop, step)]: [ceil((stop - start) / step)] values,
    the value of index [i] being [start + i * step]. *)
Definition np_arange (start stop step : Q) : list Q :=
  map (fun i => start + inject_Z (Z.of_nat i) * step)
      (seq 0 (Z.to_nat (Qceiling ((stop - start) / step)))).

(** Lines 72 and 82: the percentage of the slider, divided by 100. *)
Definition outcome_share_of_slider (percentage : Z) : Q :=
  inject_Z percentage / 100.

(** One entry of [results]: [{'Effect Size': ..., 'Power': ...}]. *)
Record row : Type := mk_row {
  Effect_Size : Q;
  Power : Q
}.

(** Lines 103-105: the loop that calls [calculate_power] once per effect
    size and appends one entry to [results] each time. *)
Fixpoint results_loop (call : Q -> prog Q) (effect_sizes : list Q)
    (results : list row) : prog (list row) :=
  match effect_sizes with
  | [] => Ret results
  | effect_size :: rest =>
      bind (call effect_size) (fun power =>
        results_loop call rest
          (results ++ [{| Effect_Size := effect_size; Power := power |}]))
  end.

(** Lines 101-105.  [use_clustering] is the label chosen in the radio
    button; the icc is read only when that label is ["Yes"]. *)
Definition power_mode_results (n_teachers : Z) (outcome_share : Q)
    (use_clustering : string) (icc : Q) : prog (list row) :=
  results_loop
    (fun effect_size =>
       calculate_power n_teachers outcome_share effect_size
         default_students_per_teacher
         (String.eqb use_clustering "Yes")
         (if String.eqb use_clustering "Yes" then icc else 0))
    (np_arange (3 # 100) (25 # 100) (3 # 100))
    [].

(** Lines 110-112. *)
Definition color_power (val : Q) : string :=
  let color := (if Qle_bool (8 # 10) val then "green" else "black")%string in
  ("color: " ++ color)%string.

(** Line 117. *)
Definition required_teachers (effect_size outcome_share : Q)
    (use_clustering : string) (icc : Q) : prog Z :=
  calculate_sample_size effect_size outcome_share
    default_students_per_teacher
    (String.eqb use_clustering "Yes")
    (if String.eqb use_clustering "Yes" then icc else 0).


(** ** Basic facts *)

Lemma Qgt0_true (x : Q) : Qgt0 x = true <-> 0 < x.
Proof.
  unfold Qgt0. rewrite negb_true_iff.
  split; intro H.
  - apply Qnot_le_lt. intro Hle. apply Qle_bool_iff in Hle. congruence.
  - destruct (Qle_bool x 0) eqn:E; [|reflexivity].
    apply Qle_bool_iff in E. lra.
Qed.

Lemma Qgt0_false (x : Q) : Qgt0 x = false <-> x <= 0.
Proof.
  unfold Qgt0. rewrite negb_false_iff. apply Qle_bool_iff.
Qed.

Lemma inject_Z_ge1 (z : Z) : (1 <= z)%Z -> 1 <= inject_Z z.
Proof. intro H. rewrite Zle_Qle in H. exact H. Qed.


Lemma py_div_ok (a b : Q) : ~ b == 0 -> py_div a b = Ret (a / b).
Proof.
  intro H. unfold py_div.
  destruct (Qeq_bool b 0) eqn:E; [|reflexivity].
  apply Qeq_bool_eq in E. contradiction.
Qed.

Lemma py_div_zero (a b : Q) : b == 0 -> py_div a b = Raise ZeroDivisionError.
Proof.
  intro H. unfold py_div. rewrite (Qeq_eq_bool _ _ H). reflexivity.
Qed.

(** The design effect of either branch is at least one as soon as a
    teacher has at least one student. *)
Lemma sample_size_deff_ge1 (spt : Z) (uc : bool) (icc : Q) :
  (1 <= spt)%Z -> 1 <= sample_size_deff spt uc icc.
Proof.
  intro Hs. apply inject_Z_ge1 in Hs. unfold sample_size_deff.
  destruct (uc && Qgt0 icc) eqn:E; [|lra].
  apply andb_true_iff in E. destruct E as [_ E]. apply Qgt0_true in E.
  nra.
Qed.

(** [effective_n] divides by the design effect in both branches. *)
Lemma effective_n_spec (n_arm spt : Z) (uc : bool) (icc : Q) :
  (1 <= spt)%Z ->
  exists x, effective_n n_arm spt uc icc = Ret x /\
            x == inject_Z n_arm * inject_Z spt / sample_size_deff spt uc icc.
Proof.
  intro Hs. pose proof (sample_size_deff_ge1 spt uc icc Hs) as Hd.
  unfold effective_n, sample_size_deff in *.
  destruct (uc && Qgt0 icc).
  - eexists. split; [apply py_div_ok; lra | reflexivity].
  - eexists. split; [reflexivity | field].
Qed.

(** ** The design effect *)

(** C3.  With at least one student per teacher and a non-negative icc, the
    design effect computed in [calculate_sample_size] is
    [1 + (students_per_teacher - 1) * icc] when clustering is on and
    [icc > 0], and exactly [1] in every other case; and the branch of
    [calculate_power] divides the observations of an arm by that same
    value. *)
Theorem cluster_adjustment_design_effect
    (spt : Z) (uc : bool) (icc : Q) (n_arm : Z) :
  (1 <= spt)%Z -> 0 <= icc ->
  (uc = true -> 0 < icc ->
     sample_size_deff spt uc icc = 1 + (inject_Z spt - 1) * icc) /\
  (uc = false \/ icc <= 0 -> sample_size_deff spt uc icc = 1) /\
  (exists x, effective_n n_arm spt uc icc = Ret x /\
     x == inject_Z n_arm * inject_Z spt / sample_size_deff spt uc icc).
Proof.
  intros Hs _. repeat split.
  - intros -> Hi. unfold sample_size_deff.
    apply Qgt0_true in Hi. rewrite Hi. reflexivity.
  - intros [-> | Hi]; unfold sample_size_deff.
    + reflexivity.
    + apply Qgt0_false in Hi. rewrite Hi, andb_false_r. reflexivity.
  - apply effective_n_spec. exact Hs.
Qed.

Lemma cluster_adjustment_design_effect_witness :
  sample_size_deff 22 true (1 # 5) = 1 + (inject_Z 22 - 1) * (1 # 5) /\
  sample_size_deff 22 false (1 # 5) = 1 /\
  sample_size_deff 22 true 0 = 1.
Proof.
  pose proof (cluster_adjustment_design_effect 22 true (1 # 5) 3
                ltac:(lia) ltac:(lra)) as [H1 _].
  pose proof (cluster_adjustment_design_effect 22 false (1 # 5) 3
                ltac:(lia) ltac:(lra)) as [_ [H2 _]].
  pose proof (cluster_adjustment_design_effect 22 true 0 3
                ltac:(lia) ltac:(lra)) as [_ [H3 _]].
  split; [apply H1; [reflexivity | lra] |].
  split; [apply H2; left; reflexivity | apply H3; right; lra].
Defined.



(** ** [calculate_power] *)

(** With at least one student per teacher, [calculate_power] does no more
    than ask statsmodels one question and hand its answer back. *)
Lemma calculate_power_question
    (n_teachers : Z) (os es : Q) (spt : Z) (uc : bool) (icc : Q) :
  (1 <= spt)%Z ->
  exists x,
    calculate_power n_teachers os es spt uc icc
      = Call_solve_power (power_question es x) Ret /\
    x == inject_Z (py_int (inject_Z n_teachers * os)) * inject_Z spt
         / sample_size_deff spt uc icc.
Proof.
  intro Hs. unfold calculate_power.
  destruct (effective_n_spec (py_int (inject_Z n_teachers * os)) spt uc icc Hs)
    as [x [Hx Hq]].
  exists x. split; [|exact Hq].
  rewrite Hx. reflexivity.
Qed.

Lemma run_solve_power_ret (R : routine) (q : power_query) :
  run R (Call_solve_power q Ret) = solve_power R q.
Proof. simpl. destruct (solve_power R q); reflexivity. Qed.

(** The outcome of [calculate_power] is the outcome of statsmodels on the
    question asked: no failure is added and none is hidden. *)
Lemma calculate_power_defers_to_routine
    (R : routine) (n_teachers : Z) (os es : Q) (spt : Z) (uc : bool)
    (icc : Q) :
  (1 <= spt)%Z ->
  exists x,
    run R (calculate_power n_teachers os es spt uc icc)
      = solve_power R (power_question es x) /\
    x == inject_Z (py_int (inject_Z n_teachers * os)) * inject_Z spt
         / sample_size_deff spt uc icc.
Proof.
  intro Hs.
  destruct (calculate_power_question n_teachers os es spt uc icc Hs)
    as [x [Hp Hx]].
  exists x. split; [|exact Hx].
  rewrite Hp. apply run_solve_power_ret.
Qed.

(** With no teacher at all, the question put to statsmodels is the power
    at zero observations per arm; whether that is a value or an exception
    is for statsmodels to say, and [calculate_power] passes it on as it
    is. *)
Lemma calculate_power_zero_teachers
    (R : routine) (os es : Q) (spt : Z) (uc : bool) (icc : Q) :
  (1 <= spt)%Z ->
  exists x,
    run R (calculate_power 0 os es spt uc icc)
      = solve_power R (power_question es x) /\
    x == 0.
Proof.
  intro Hs.
  destruct (calculate_power_defers_to_routine R 0 os es spt uc icc Hs)
    as [x [Hr Hx]].
  exists x. split; [exact Hr|].
  rewrite Hx.
  assert (E : py_int (inject_Z 0 * os) = 0%Z) by reflexivity.
  rewrite E. unfold Qdiv. ring.
Qed.

(** C2, as the specification states it, fails: with one teacher and an
    outcome share of one half the program asks for the power at zero
    observations per arm, where the formula of the specification gives
    eleven. *)
Lemma effective_sample_size_real_product_counterexample :
  exists q,
    asked_power (calculate_power 1 (1 # 2) (12 # 100) 22 false 0) = Some q /\
    pq_nobs1 q == 0 /\
    spec_effective_sample_size 1 (1 # 2) 22 (sample_size_deff 22 false 0)
      == 11 /\
    ~ pq_nobs1 q
      == spec_effective_sample_size 1 (1 # 2) 22 (sample_size_deff 22 false 0).
Proof.
  eexists. split; [reflexivity|].
  split; [reflexivity|]. split; [reflexivity|].
  intro H. vm_compute in H. discriminate H.
Qed.

(** C2, amended.  For [n_units >= 0], [outcome_share] in [0,1] and at least
    one unit per cluster, the per-arm observation count passed to the power
    routine is [int(n_units * outcome_share) * units_per_cluster /
    DesignEffect]: the product is truncated to a whole number of teachers
    first.  The other arguments are the effect size, ratio 1, alpha 0.05
    and the two-sided alternative. *)
Theorem effective_sample_size_truncated
    (n_units : Z) (os es : Q) (spt : Z) (uc : bool) (icc : Q) :
  (0 <= n_units)%Z -> 0 <= os -> os <= 1 -> (1 <= spt)%Z ->
  exists q,
    asked_power (calculate_power n_units os es spt uc icc) = Some q /\
    pq_nobs1 q
      == inject_Z (py_int (inject_Z n_units * os)) * inject_Z spt
         / sample_size_deff spt uc icc /\
    pq_effect_size q = es /\ pq_ratio q = 1 /\ pq_alpha q = 5 # 100 /\
    pq_alternative q = two_sided /\
    forall R, run R (calculate_power n_units os es spt uc icc)
              = solve_power R q.
Proof.
  intros _ _ _ Hs.
  destruct (calculate_power_question n_units os es spt uc icc Hs)
    as [x [Hp Hx]].
  exists (power_question es x). rewrite Hp. simpl.
  repeat split; try reflexivity.
  - exact Hx.
  - intro R. destruct (solve_power R (power_question es x)); reflexivity.
Qed.

Lemma effective_sample_size_truncated_witness :
  exists q,
    asked_power (calculate_power 25 (1 # 2) (12 # 100) 22 true (1 # 5))
      = Some q /\
    pq_nobs1 q == 1320 # 26.
Proof.
  destruct (effective_sample_size_truncated 25 (1 # 2) (12 # 100) 22 true
              (1 # 5) ltac:(lia) ltac:(lra) ltac:(lra) ltac:(lia))
    as [q [Ha [Hn _]]].
  exists q. split; [exact Ha|].
  rewrite Hn. reflexivity.
Defined.

(** C10.  [calculate_power] reads [outcome_share] only through
    [int(n_teachers * outcome_share)]: two outcome shares with the same
    truncated product give the same computation, hence the same question to
    statsmodels and the same power. *)
Theorem calculate_power_step_in_outcome_share
    (n_teachers : Z) (os1 os2 es : Q) (spt : Z) (uc : bool) (icc : Q) :
  0 <= os1 -> os1 <= 1 -> 0 <= os2 -> os2 <= 1 ->
  py_int (inject_Z n_teachers * os1) = py_int (inject_Z n_teachers * os2) ->
  calculate_power n_teachers os1 es spt uc icc
    = calculate_power n_teachers os2 es spt uc icc /\
  forall R, run R (calculate_power n_teachers os1 es spt uc icc)
            = run R (calculate_power n_teachers os2 es spt uc icc).
Proof.
  intros _ _ _ _ H.
  assert (E : calculate_power n_teachers os1 es spt uc icc
              = calculate_power n_teachers os2 es spt uc icc).
  { unfold calculate_power. rewrite H. reflexivity. }
  split; [exact E | intro R; rewrite E; reflexivity].
Qed.

Lemma calculate_power_step_in_outcome_share_witness :
  run stub (calculate_power 10 (51 # 100) (12 # 100) 22 true (1 # 5))
  = run stub (calculate_power 10 (59 # 100) (12 # 100) 22 true (1 # 5)).
Proof.
  apply (calculate_power_step_in_outcome_share 10 (51 # 100) (59 # 100)
           (12 # 100) 22 true (1 # 5));
    try lra; reflexivity.
Defined.

(** ** [calculate_sample_size] *)

(** What [calculate_sample_size] returns once statsmodels has answered
    [n] and the divisor is not zero. *)
Lemma calculate_sample_size_run
    (R : routine) (es os : Q) (spt : Z) (uc : bool) (icc n : Q) :
  ~ inject_Z spt * os == 0 ->
  tt_ind_solve_power R (nobs_question es) = Ok n ->
  run R (calculate_sample_size es os spt uc icc)
  = Ok (Qceiling (n * sample_size_deff spt uc icc / (inject_Z spt * os))
        * 2)%Z.
Proof.
  intros Hd Hn. unfold calculate_sample_size. simpl.
  change (mk_nobs_query es (5 # 100) (8 # 10) 1 two_sided)
    with (nobs_question es).
  rewrite Hn. rewrite (py_div_ok _ _ Hd). reflexivity.
Qed.

Lemma calculate_sample_size_run_err
    (R : routine) (es os : Q) (spt : Z) (uc : bool) (icc : Q) (e : exn) :
  tt_ind_solve_power R (nobs_question es) = Err e ->
  run R (calculate_sample_size es os spt uc icc) = Err e.
Proof.
  intro Hn. unfold calculate_sample_size. simpl.
  change (mk_nobs_query es (5 # 100) (8 # 10) 1 two_sided)
    with (nobs_question es).
  rewrite Hn. reflexivity.
Qed.

Lemma divisor_pos (spt : Z) (os : Q) :
  (1 <= spt)%Z -> 0 < os -> 0 < inject_Z spt * os.
Proof. intros Hs Ho. apply inject_Z_ge1 in Hs. nra. Qed.

Lemma divisor_nonzero (spt : Z) (os : Q) :
  (1 <= spt)%Z -> 0 < os -> ~ inject_Z spt * os == 0.
Proof. intros Hs Ho H. pose proof (divisor_pos spt os Hs Ho). lra. Qed.

(** C4.  For an outcome share in (0,1] and at least one unit per cluster,
    [calculate_sample_size] asks the inverse solver for the per-arm count
    [n] at the given effect size, alpha 0.05, power 0.80, ratio 1,
    two-sided, and returns
    [2 * ceiling(n * deff / (units_per_cluster * outcome_share))]. *)
Theorem calculate_sample_size_formula
    (R : routine) (es os : Q) (spt : Z) (uc : bool) (icc : Q) :
  0 < os -> os <= 1 -> (1 <= spt)%Z ->
  asked_nobs (calculate_sample_size es os spt uc icc)
    = Some {| nq_effect_size := es; nq_alpha := 5 # 100;
              nq_power := 8 # 10; nq_ratio := 1;
              nq_alternative := two_sided |} /\
  forall n,
    tt_ind_solve_power R {| nq_effect_size := es; nq_alpha := 5 # 100;
                            nq_power := 8 # 10; nq_ratio := 1;
                            nq_alternative := two_sided |} = Ok n ->
    run R (calculate_sample_size es os spt uc icc)
    = Ok (spec_total n (sample_size_deff spt uc icc) spt os).
Proof.
  intros Ho _ Hs. split; [reflexivity|].
  intros n Hn.
  rewrite (calculate_sample_size_run R es os spt uc icc n
             (divisor_nonzero spt os Hs Ho) Hn).
  unfold spec_total. f_equal. apply Z.mul_comm.
Qed.

Lemma calculate_sample_size_formula_witness :
  run stub (calculate_sample_size (12 # 100) (1 # 2) 22 true (1 # 5))
  = Ok 1032%Z.
Proof.
  destruct (calculate_sample_size_formula stub (12 # 100) (1 # 2) 22 true
              (1 # 5) ltac:(lra) ltac:(lra) ltac:(lia)) as [_ H].
  rewrite (H _ eq_refl). reflexivity.
Defined.

Lemma Qceiling_nonneg (x : Q) : 0 <= x -> (0 <= Qceiling x)%Z.
Proof. intro H. apply (Qceiling_resp_le 0 x) in H. exact H. Qed.

Lemma Qceiling_pos (x : Q) : 0 < x -> (1 <= Qceiling x)%Z.
Proof.
  intro H. pose proof (Qle_ceiling x) as Hc.
  assert (Hz : inject_Z 0 < inject_Z (Qceiling x)).
  { change (inject_Z 0) with 0. lra. }
  rewrite <- Zlt_Qlt in Hz. lia.
Qed.

Lemma quotient_nonneg (a b : Q) : 0 <= a -> 0 < b -> 0 <= a / b.
Proof.
  intros Ha Hb. apply Qle_shift_div_l; [exact Hb | lra].
Qed.

Lemma quotient_pos (a b : Q) : 0 < a -> 0 < b -> 0 < a / b.
Proof.
  intros Ha Hb. apply Qlt_shift_div_l; [exact Hb | lra].
Qed.

Lemma quotient_le (a b c : Q) : a <= b -> 0 < c -> a / c <= b / c.
Proof.
  intros Hab Hc. apply Qle_shift_div_l; [exact Hc|].
  setoid_replace (a / c * c) with a by (field; lra). exact Hab.
Qed.

(** C8.  On valid input (outcome share in (0,1], at least one unit per
    cluster, any clustering flag and icc) and a non-negative per-arm count
    [n] from the solver, [calculate_sample_size] returns an even,
    non-negative integer; when [n] is positive, as it is for an effect size
    of 0.12, the result is an even integer of at least 2. *)
Theorem calculate_sample_size_even_nonneg
    (R : routine) (es os : Q) (spt : Z) (uc : bool) (icc n : Q) :
  0 < os -> os <= 1 -> (1 <= spt)%Z ->
  tt_ind_solve_power R (nobs_question es) = Ok n -> 0 <= n ->
  exists total,
    run R (calculate_sample_size es os spt uc icc) = Ok total /\
    Z.Even total /\ (0 <= total)%Z /\ (0 < n -> (2 <= total)%Z).
Proof.
  intros Ho _ Hs Hn Hn0.
  pose proof (divisor_pos spt os Hs Ho) as Hd.
  pose proof (sample_size_deff_ge1 spt uc icc Hs) as Hdeff.
  rewrite (calculate_sample_size_run R es os spt uc icc n
             (divisor_nonzero spt os Hs Ho) Hn).
  eexists. split; [reflexivity|].
  split; [|split].
  - exists (Qceiling (n * sample_size_deff spt uc icc / (inject_Z spt * os))).
    apply Z.mul_comm.
  - assert (H0 : 0 <= n * sample_size_deff spt uc icc / (inject_Z spt * os))
      by (apply quotient_nonneg; [nra | exact Hd]).
    apply Qceiling_nonneg in H0. lia.
  - intro Hpos.
    assert (H0 : 0 < n * sample_size_deff spt uc icc / (inject_Z spt * os))
      by (apply quotient_pos; [nra | exact Hd]).
    apply Qceiling_pos in H0. lia.
Qed.

Lemma calculate_sample_size_even_nonneg_witness :
  exists total,
    run stub (calculate_sample_size (12 # 100) 1 22 false 0) = Ok total /\
    Z.Even total /\ (2 <= total)%Z.
Proof.
  destruct (calculate_sample_size_even_nonneg stub (12 # 100) 1 22 false 0
              _ ltac:(lra) ltac:(lra) ltac:(lia) eq_refl ltac:(vm_compute; discriminate))
    as [total [Hr [He [_ H2]]]].
  exists total. split; [exact Hr|]. split; [exact He|].
  apply H2. vm_compute. reflexivity.
Defined.

Lemma sample_size_deff_monotone (spt : Z) (icc1 icc2 : Q) :
  (1 <= spt)%Z -> icc1 <= icc2 ->
  sample_size_deff spt true icc1 <= sample_size_deff spt true icc2.
Proof.
  intros Hs H12. apply inject_Z_ge1 in Hs. unfold sample_size_deff. simpl.
  destruct (Qgt0 icc1) eqn:E1; destruct (Qgt0 icc2) eqn:E2.
  - nra.
  - apply Qgt0_true in E1. apply Qgt0_false in E2. lra.
  - apply Qgt0_true in E2. nra.
  - lra.
Qed.

Lemma sample_size_le_of_icc_le
    (R : routine) (es os : Q) (spt : Z) (icc1 icc2 n : Q) :
  0 < os -> (1 <= spt)%Z ->
  tt_ind_solve_power R (nobs_question es) = Ok n -> 0 <= n ->
  icc1 <= icc2 ->
  exists t1 t2,
    run R (calculate_sample_size es os spt true icc1) = Ok t1 /\
    run R (calculate_sample_size es os spt true icc2) = Ok t2 /\
    (t1 <= t2)%Z.
Proof.
  intros Ho Hs Hn Hn0 H12.
  pose proof (divisor_pos spt os Hs Ho) as Hd.
  pose proof (divisor_nonzero spt os Hs Ho) as Hnz.
  pose proof (sample_size_deff_monotone spt icc1 icc2 Hs H12) as Hm.
  rewrite (calculate_sample_size_run R es os spt true icc1 n Hnz Hn).
  rewrite (calculate_sample_size_run R es os spt true icc2 n Hnz Hn).
  do 2 eexists. split; [reflexivity|]. split; [reflexivity|].
  apply Z.mul_le_mono_nonneg_r; [lia|].
  apply Qceiling_resp_le. apply quotient_le; [nra | exact Hd].
Qed.

(** C7.  With clustering on, 22 students per teacher, a positive outcome
    share and a non-negative per-arm count from the solver, the value of
    [calculate_sample_size] at [icc = 0.2] is at least its value at
    [icc = 0.0]; more generally the value does not decrease when the icc
    grows, for any number of students per teacher of at least one. *)
Theorem calculate_sample_size_icc_monotone
    (R : routine) (es os n : Q) :
  0 < os -> os <= 1 ->
  tt_ind_solve_power R (nobs_question es) = Ok n -> 0 <= n ->
  (exists t0 t2,
     run R (calculate_sample_size es os 22 true 0) = Ok t0 /\
     run R (calculate_sample_size es os 22 true (2 # 10)) = Ok t2 /\
     (t0 <= t2)%Z) /\
  (forall spt icc1 icc2, (1 <= spt)%Z -> icc1 <= icc2 ->
   exists t1 t2,
     run R (calculate_sample_size es os spt true icc1) = Ok t1 /\
     run R (calculate_sample_size es os spt true icc2) = Ok t2 /\
     (t1 <= t2)%Z).
Proof.
  intros Ho _ Hn Hn0. split.
  - apply (sample_size_le_of_icc_le R es os 22 0 (2 # 10) n);
      try assumption; [lia | lra].
  - intros spt icc1 icc2 Hs H12.
    apply (sample_size_le_of_icc_le R es os spt icc1 icc2 n);
      assumption.
Qed.

Lemma calculate_sample_size_icc_monotone_witness :
  exists t0 t2,
    run stub (calculate_sample_size (12 # 100) 1 22 true 0) = Ok t0 /\
    run stub (calculate_sample_size (12 # 100) 1 22 true (2 # 10)) = Ok t2 /\
    (t0 <= t2)%Z.
Proof.
  exact (proj1 (calculate_sample_size_icc_monotone stub (12 # 100) 1 _
                  ltac:(lra) ltac:(lra) eq_refl
                  ltac:(vm_compute; discriminate))).
Defined.

(** C1, as the specification states it, fails: at [outcome_share = 0] the
    division raises [ZeroDivisionError], which is not the
    [DegenerateInputError] the specification asks for. *)
Lemma degenerate_input_error_counterexample :
  run stub (calculate_sample_size (12 # 100) 0 22 false 0)
    = Err ZeroDivisionError /\
  run stub (calculate_sample_size (12 # 100) 0 22 false 0)
    <> Err DegenerateInputError.
Proof.
  split; [reflexivity|].
  intro H. vm_compute in H. discriminate H.
Qed.

(** C1, amended.  For [outcome_share = 0], [calculate_sample_size] does not
    return a numeric value: every run ends in an exception. *)
Theorem calculate_sample_size_zero_share_no_value
    (R : routine) (es os : Q) (spt : Z) (uc : bool) (icc : Q) :
  os == 0 ->
  exists e, run R (calculate_sample_size es os spt uc icc) = Err e.
Proof.
  intro Ho.
  destruct (tt_ind_solve_power R (nobs_question es)) as [n | e] eqn:Hn.
  - exists ZeroDivisionError.
    unfold calculate_sample_size. simpl.
    change (mk_nobs_query es (5 # 100) (8 # 10) 1 two_sided)
      with (nobs_question es).
    rewrite Hn. rewrite py_div_zero; [reflexivity|].
    rewrite Ho. ring.
  - exists e. apply calculate_sample_size_run_err. exact Hn.
Qed.

Lemma calculate_sample_size_zero_share_no_value_witness :
  exists e,
    run stub (calculate_sample_size (12 # 100) 0 22 true (1 # 5)) = Err e.
Proof.
  apply (calculate_sample_size_zero_share_no_value stub (12 # 100) 0 22 true
           (1 # 5)).
  reflexivity.
Defined.

(** ** Round trip *)

Lemma stub_fraction_monotone (x y : Q) :
  0 < x -> x <= y -> x / (x + stub_c) <= y / (y + stub_c).
Proof.
  intros Hx Hxy. unfold stub_c.
  apply Qle_shift_div_l; [lra|].
  setoid_replace (x / (x + (314 # 75)) * (y + (314 # 75)))
    with (x * (y + (314 # 75)) / (x + (314 # 75))) by (field; lra).
  apply Qle_shift_div_r; [lra | nra].
Qed.

Lemma stub_power_monotone (es a b pa : Q) :
  a <= b ->
  solve_power stub (power_question es a) = Ok pa ->
  exists pb, solve_power stub (power_question es b) = Ok pb /\ pa <= pb.
Proof.
  intros Hab. simpl. unfold stub_solve_power. simpl.
  assert (Hsq : 0 <= es * es) by nra.
  assert (Hx : es * es * a <= es * es * b) by nra.
  destruct (Qle_bool (es * es * a) 0) eqn:Ea;
    destruct (Qle_bool (es * es * b) 0) eqn:Eb;
    intro H; injection H as <-; eexists; (split; [reflexivity|]).
  - lra.
  - assert (Hb : 0 < es * es * b).
    { apply Qnot_le_lt. intro Hle. apply Qle_bool_iff in Hle. congruence. }
    assert (0 <= es * es * b / (es * es * b + stub_c))
      by (apply quotient_nonneg; unfold stub_c; lra).
    lra.
  - apply Qle_bool_iff in Eb.
    assert (Ha : 0 < es * es * a).
    { apply Qnot_le_lt. intro Hle. apply Qle_bool_iff in Hle. congruence. }
    lra.
  - assert (Ha : 0 < es * es * a).
    { apply Qnot_le_lt. intro Hle. apply Qle_bool_iff in Hle. congruence. }
    pose proof (stub_fraction_monotone _ _ Ha Hx). lra.
Qed.

Lemma stub_solver_consistent (es n : Q) :
  tt_ind_solve_power stub (nobs_question es) = Ok n ->
  exists p, solve_power stub (power_question es n) = Ok p /\ p == 8 # 10.
Proof.
  simpl. unfold stub_tt_ind_solve_power. simpl.
  destruct (Qeq_bool es 0) eqn:E; [discriminate|].
  apply Qeq_bool_neq in E.
  intro H. injection H as <-.
  unfold stub_solve_power. simpl.
  set (n := stub_c * ((8 # 10) - (5 # 100)) / ((1 - (8 # 10)) * (es * es))).
  assert (Hx : es * es * n == 157 # 10).
  { unfold n, stub_c. field. exact E. }
  assert (Eb : Qle_bool (es * es * n) 0 = false).
  { destruct (Qle_bool (es * es * n) 0) eqn:Eb; [|reflexivity].
    apply Qle_bool_iff in Eb. lra. }
  rewrite Eb. eexists. split; [reflexivity|].
  rewrite Hx. reflexivity.
Qed.

Lemma stub_sensible (tol : Q) : 0 <= tol -> sensible_routine stub tol.
Proof.
  intro Ht. split.
  - intros es a b pa. apply stub_power_monotone.
  - intros es n Hn.
    destruct (stub_solver_consistent es n Hn) as [p [Hp Hv]].
    exists p. split; [exact Hp | lra].
Qed.






(** ** Further properties of [calculate_power] *)

Lemma py_int_nonneg_floor (x : Q) : 0 <= x -> py_int x = Qfloor x.
Proof.
  destruct x as [n d]. unfold Qle, py_int, Qfloor. simpl. intro H.
  apply Z.quot_div_nonneg; lia.
Qed.

Lemma py_int_nonneg (x : Q) : 0 <= x -> (0 <= py_int x)%Z.
Proof.
  intro H. rewrite (py_int_nonneg_floor x H).
  apply (Qfloor_resp_le 0 x) in H. exact H.
Qed.

Lemma py_int_le (x : Q) : 0 <= x -> inject_Z (py_int x) <= x.
Proof.
  intro H. rewrite (py_int_nonneg_floor x H). apply Qfloor_le.
Qed.

Lemma py_int_monotone (x y : Q) :
  0 <= x -> x <= y -> (py_int x <= py_int y)%Z.
Proof.
  intros Hx Hxy.
  rewrite (py_int_nonneg_floor x Hx).
  rewrite (py_int_nonneg_floor y) by lra.
  apply Qfloor_resp_le. exact Hxy.
Qed.

Lemma py_int_inject_Z (z : Z) : py_int (inject_Z z) = z.
Proof. unfold py_int. simpl. apply Z.quot_1_r. Qed.

Lemma inject_Z_nonneg (z : Z) : (0 <= z)%Z -> 0 <= inject_Z z.
Proof. intro H. rewrite Zle_Qle in H. exact H. Qed.

Lemma inject_Z_le (a b : Z) : (a <= b)%Z -> inject_Z a <= inject_Z b.
Proof. intro H. rewrite Zle_Qle in H. exact H. Qed.

Lemma quotient_antitone (a d1 d2 : Q) :
  0 <= a -> 0 < d1 -> d1 <= d2 -> a / d2 <= a / d1.
Proof.
  intros Ha Hd1 Hd12.
  apply Qle_shift_div_l; [exact Hd1|].
  setoid_replace (a / d2 * d1) with (a * d1 / d2) by (field; lra).
  apply Qle_shift_div_r; [lra | nra].
Qed.

(** The number of whole teachers of one arm lies between zero and the
    number of fellows. *)
Lemma n_treatment_bounds (n_teachers : Z) (os : Q) :
  (0 <= n_teachers)%Z -> 0 <= os -> os <= 1 ->
  (0 <= py_int (inject_Z n_teachers * os) <= n_teachers)%Z.
Proof.
  intros Hn H0 H1. apply inject_Z_nonneg in Hn as Hq.
  assert (Hx : 0 <= inject_Z n_teachers * os) by nra.
  split; [apply py_int_nonneg; exact Hx|].
  pose proof (py_int_le _ Hx) as Hle.
  rewrite Zle_Qle. nra.
Qed.

(** The question asked does not depend on the effect size otherwise than
    by its first field: one [nobs1] serves every effect size. *)
Lemma calculate_power_question_uniform
    (n_teachers : Z) (os : Q) (spt : Z) (uc : bool) (icc : Q) :
  (1 <= spt)%Z ->
  exists x,
    x == inject_Z (py_int (inject_Z n_teachers * os)) * inject_Z spt
         / sample_size_deff spt uc icc /\
    forall es,
      calculate_power n_teachers os es spt uc icc
        = Call_solve_power (power_question es x) Ret.
Proof.
  intro Hs.
  destruct (effective_n_spec (py_int (inject_Z n_teachers * os)) spt uc icc Hs)
    as [x [Hx Hq]].
  exists x. split; [exact Hq|].
  intro es. unfold calculate_power. rewrite Hx. reflexivity.
Qed.

(** X1.  [calculate_power] fails on its own exactly when the design effect
    is zero, which takes clustering, a positive icc and fewer than one
    student per teacher; it then raises [ZeroDivisionError] without
    consulting statsmodels.  In every other case it asks statsmodels one
    question and its outcome is the outcome of that question. *)
Theorem calculate_power_own_failure
    (n_teachers : Z) (os es : Q) (spt : Z) (uc : bool) (icc : Q) :
  (sample_size_deff spt uc icc == 0 /\
   uc = true /\ 0 < icc /\ (spt < 1)%Z /\
   calculate_power n_teachers os es spt uc icc = Raise ZeroDivisionError /\
   forall R, run R (calculate_power n_teachers os es spt uc icc)
             = Err ZeroDivisionError)
  \/
  (~ sample_size_deff spt uc icc == 0 /\
   exists q,
     asked_power (calculate_power n_teachers os es spt uc icc) = Some q /\
     forall R, run R (calculate_power n_teachers os es spt uc icc)
               = solve_power R q).
Proof.
  unfold calculate_power, effective_n, sample_size_deff.
  destruct (uc && Qgt0 icc) eqn:E.
  - apply andb_true_iff in E. destruct E as [Hu Hi]. apply Qgt0_true in Hi.
    destruct (Qeq_bool (1 + (inject_Z spt - 1) * icc) 0) eqn:Ez.
    + left. apply Qeq_bool_eq in Ez as Hz.
      split; [exact Hz|]. split; [exact Hu|]. split; [exact Hi|].
      split.
      { destruct (Z_lt_le_dec spt 1) as [Hlt | Hge]; [exact Hlt|].
        apply inject_Z_ge1 in Hge. nra. }
      rewrite (py_div_zero _ _ Hz). split; [reflexivity | intro R; reflexivity].
    + right. apply Qeq_bool_neq in Ez as Hz.
      split; [exact Hz|].
      rewrite (py_div_ok _ _ Hz). simpl.
      eexists. split; [reflexivity|].
      intro R. match goal with |- context [solve_power R ?q] =>
                 destruct (solve_power R q); reflexivity end.
  - right. split; [lra|]. simpl.
    eexists. split; [reflexivity|].
    intro R. match goal with |- context [solve_power R ?q] =>
               destruct (solve_power R q); reflexivity end.
Qed.

(** X2.  For a non-negative number of fellows, an outcome share in [0,1]
    and at least one student per teacher, the per-arm observation count
    handed to statsmodels lies between zero and
    [n_teachers * students_per_teacher]: clustering and the outcome share
    only ever take observations away. *)
Theorem calculate_power_nobs1_bounds
    (n_teachers : Z) (os es : Q) (spt : Z) (uc : bool) (icc : Q) :
  (0 <= n_teachers)%Z -> 0 <= os -> os <= 1 -> (1 <= spt)%Z ->
  exists q,
    asked_power (calculate_power n_teachers os es spt uc icc) = Some q /\
    0 <= pq_nobs1 q /\
    pq_nobs1 q <= inject_Z n_teachers * inject_Z spt.
Proof.
  intros Hn H0 H1 Hs.
  destruct (calculate_power_question n_teachers os es spt uc icc Hs)
    as [x [Hp Hx]].
  exists (power_question es x). rewrite Hp. simpl.
  split; [reflexivity|].
  pose proof (n_treatment_bounds n_teachers os Hn H0 H1) as [Hk0 Hk1].
  pose proof (sample_size_deff_ge1 spt uc icc Hs) as Hd.
  apply inject_Z_nonneg in Hk0. apply inject_Z_le in Hk1.
  apply inject_Z_ge1 in Hs.
  set (k := inject_Z (py_int (inject_Z n_teachers * os))) in *.
  rewrite Hx. split.
  - apply quotient_nonneg; [nra | lra].
  - apply Qle_shift_div_r; [lra|].
    assert (Ha : k * inject_Z spt <= inject_Z n_teachers * inject_Z spt)
      by nra.
    assert (Hb : 0 <= inject_Z n_teachers * inject_Z spt) by nra.
    nra.
Qed.

Lemma calculate_power_nobs1_bounds_witness :
  exists q,
    asked_power (calculate_power 25 (1 # 2) (12 # 100) 22 true (1 # 5))
      = Some q /\
    0 <= pq_nobs1 q /\ pq_nobs1 q <= 550.
Proof.
  destruct (calculate_power_nobs1_bounds 25 (1 # 2) (12 # 100) 22 true
              (1 # 5) ltac:(lia) ltac:(lra) ltac:(lra) ltac:(lia))
    as [q [Ha [H0 H1]]].
  exists q. split; [exact Ha|]. split; [exact H0|].
  exact H1.
Defined.

(** X3.  More fellows, or a larger share of them with outcomes, never
    lower the per-arm observation count handed to statsmodels. *)
Theorem calculate_power_nobs1_monotone
    (n1 n2 : Z) (os1 os2 es : Q) (spt : Z) (uc : bool) (icc : Q) :
  (0 <= n1)%Z -> (n1 <= n2)%Z -> 0 <= os1 -> os1 <= os2 -> (1 <= spt)%Z ->
  exists q1 q2,
    asked_power (calculate_power n1 os1 es spt uc icc) = Some q1 /\
    asked_power (calculate_power n2 os2 es spt uc icc) = Some q2 /\
    pq_nobs1 q1 <= pq_nobs1 q2.
Proof.
  intros Hn1 Hn12 Ho1 Ho12 Hs.
  destruct (calculate_power_question n1 os1 es spt uc icc Hs)
    as [x1 [Hp1 Hx1]].
  destruct (calculate_power_question n2 os2 es spt uc icc Hs)
    as [x2 [Hp2 Hx2]].
  exists (power_question es x1), (power_question es x2).
  rewrite Hp1, Hp2. simpl. split; [reflexivity|]. split; [reflexivity|].
  pose proof (sample_size_deff_ge1 spt uc icc Hs) as Hd.
  apply inject_Z_nonneg in Hn1 as Hq1. apply inject_Z_le in Hn12 as Hq12.
  assert (Hprod : inject_Z n1 * os1 <= inject_Z n2 * os2) by nra.
  assert (Hnn : 0 <= inject_Z n1 * os1) by nra.
  pose proof (py_int_monotone _ _ Hnn Hprod) as Hk.
  apply inject_Z_le in Hk. apply inject_Z_ge1 in Hs.
  rewrite Hx1, Hx2.
  apply quotient_le; [nra | lra].
Qed.

Lemma calculate_power_nobs1_monotone_witness :
  exists q1 q2,
    asked_power (calculate_power 10 (1 # 2) (12 # 100) 22 true (1 # 5))
      = Some q1 /\
    asked_power (calculate_power 25 (3 # 4) (12 # 100) 22 true (1 # 5))
      = Some q2 /\
    pq_nobs1 q1 <= pq_nobs1 q2.
Proof.
  apply (calculate_power_nobs1_monotone 10 25 (1 # 2) (3 # 4) (12 # 100) 22
           true (1 # 5)); try lia; lra.
Defined.

(** X4.  With clustering on, a larger icc never raises the per-arm
    observation count handed to statsmodels, and switching clustering on
    never raises it either. *)
Theorem calculate_power_nobs1_clustering
    (n_teachers : Z) (os es : Q) (spt : Z) (icc1 icc2 : Q) :
  (0 <= n_teachers)%Z -> 0 <= os -> (1 <= spt)%Z -> icc1 <= icc2 ->
  exists q_off q1 q2,
    asked_power (calculate_power n_teachers os es spt false icc2)
      = Some q_off /\
    asked_power (calculate_power n_teachers os es spt true icc1) = Some q1 /\
    asked_power (calculate_power n_teachers os es spt true icc2) = Some q2 /\
    pq_nobs1 q2 <= pq_nobs1 q1 /\
    pq_nobs1 q1 <= pq_nobs1 q_off.
Proof.
  intros Hn Ho Hs H12.
  destruct (calculate_power_question n_teachers os es spt false icc2 Hs)
    as [x0 [Hp0 Hx0]].
  destruct (calculate_power_question n_teachers os es spt true icc1 Hs)
    as [x1 [Hp1 Hx1]].
  destruct (calculate_power_question n_teachers os es spt true icc2 Hs)
    as [x2 [Hp2 Hx2]].
  exists (power_question es x0), (power_question es x1),
         (power_question es x2).
  rewrite Hp0, Hp1, Hp2. simpl.
  do 3 (split; [reflexivity|]).
  pose proof (sample_size_deff_ge1 spt true icc1 Hs) as Hd1.
  pose proof (sample_size_deff_monotone spt icc1 icc2 Hs H12) as Hd12.
  apply inject_Z_nonneg in Hn as Hq.
  assert (Hnn : 0 <= inject_Z n_teachers * os) by nra.
  pose proof (py_int_nonneg _ Hnn) as Hk. apply inject_Z_nonneg in Hk.
  apply inject_Z_ge1 in Hs.
  assert (Ha : 0 <= inject_Z (py_int (inject_Z n_teachers * os))
                    * inject_Z spt) by nra.
  rewrite Hx0, Hx1, Hx2. split.
  - apply quotient_antitone; [exact Ha | lra | exact Hd12].
  - change (sample_size_deff spt false icc2) with 1.
    apply quotient_antitone; [exact Ha | lra | exact Hd1].
Qed.

Lemma calculate_power_nobs1_clustering_witness :
  exists q_off q1 q2,
    asked_power (calculate_power 25 1 (12 # 100) 22 false (1 # 5))
      = Some q_off /\
    asked_power (calculate_power 25 1 (12 # 100) 22 true (1 # 10))
      = Some q1 /\
    asked_power (calculate_power 25 1 (12 # 100) 22 true (1 # 5))
      = Some q2 /\
    pq_nobs1 q2 <= pq_nobs1 q1 /\
    pq_nobs1 q1 <= pq_nobs1 q_off.
Proof.
  apply (calculate_power_nobs1_clustering 25 1 (12 # 100) 22 (1 # 10)
           (1 # 5)); try lia; lra.
Defined.

(** X5.  When the power of statsmodels does not decrease with [nobs1],
    the power computed for more fellows, or for a larger outcome share, is
    defined wherever the power for fewer is, and is at least as large. *)
Theorem calculate_power_monotone_in_fellows
    (R : routine) (tol : Q) (n1 n2 : Z) (os1 os2 es : Q) (spt : Z)
    (uc : bool) (icc p1 : Q) :
  sensible_routine R tol ->
  (0 <= n1)%Z -> (n1 <= n2)%Z -> 0 <= os1 -> os1 <= os2 -> (1 <= spt)%Z ->
  run R (calculate_power n1 os1 es spt uc icc) = Ok p1 ->
  exists p2,
    run R (calculate_power n2 os2 es spt uc icc) = Ok p2 /\ p1 <= p2.
Proof.
  intros [Hmono _] Hn1 Hn12 Ho1 Ho12 Hs Hrun.
  destruct (calculate_power_defers_to_routine R n1 os1 es spt uc icc Hs)
    as [x1 [Hr1 Hx1]].
  destruct (calculate_power_defers_to_routine R n2 os2 es spt uc icc Hs)
    as [x2 [Hr2 Hx2]].
  rewrite Hr1 in Hrun. rewrite Hr2.
  apply (Hmono es x1 x2 p1); [|exact Hrun].
  pose proof (sample_size_deff_ge1 spt uc icc Hs) as Hd.
  apply inject_Z_nonneg in Hn1 as Hq1. apply inject_Z_le in Hn12 as Hq12.
  assert (Hprod : inject_Z n1 * os1 <= inject_Z n2 * os2) by nra.
  assert (Hnn : 0 <= inject_Z n1 * os1) by nra.
  pose proof (py_int_monotone _ _ Hnn Hprod) as Hk.
  apply inject_Z_le in Hk. apply inject_Z_ge1 in Hs.
  rewrite Hx1, Hx2.
  apply quotient_le; [nra | lra].
Qed.

Lemma calculate_power_monotone_in_fellows_witness :
  exists p2,
    run stub (calculate_power 25 1 (12 # 100) 22 true (1 # 5)) = Ok p2 /\
    (26057200000000000 # 227708000000000000) <= p2.
Proof.
  apply (calculate_power_monotone_in_fellows stub 0 10 25 (1 # 2) 1
           (12 # 100) 22 true (1 # 5)).
  - apply stub_sensible. lra.
  - lia.
  - lia.
  - lra.
  - lra.
  - lia.
  - vm_compute. reflexivity.
Defined.

(** ** Further properties of [calculate_sample_size] *)

Lemma run_bind {A B : Type} (R : routine) (p : prog A) (f : A -> prog B) :
  run R (bind p f)
  = match run R p with
    | Ok a => run R (f a)
    | Err e => Err e
    end.
Proof.
  induction p as [a | e | q k IH | q k IH]; simpl.
  - reflexivity.
  - reflexivity.
  - destruct (solve_power R q); [apply IH | reflexivity].
  - destruct (tt_ind_solve_power R q); [apply IH | reflexivity].
Qed.

Lemma calculate_sample_size_run_zero
    (R : routine) (es os : Q) (spt : Z) (uc : bool) (icc n : Q) :
  inject_Z spt * os == 0 ->
  tt_ind_solve_power R (nobs_question es) = Ok n ->
  run R (calculate_sample_size es os spt uc icc) = Err ZeroDivisionError.
Proof.
  intros Hz Hn. unfold calculate_sample_size. simpl.
  change (mk_nobs_query es (5 # 100) (8 # 10) 1 two_sided)
    with (nobs_question es).
  rewrite Hn. rewrite (py_div_zero _ _ Hz). reflexivity.
Qed.

(** X6.  An exception raised by the solver of statsmodels comes out of
    [calculate_sample_size] unchanged; when
    [students_per_teacher * outcome_share] is zero no value is returned;
    hence [calculate_sample_size] returns a value only if the solver
    answered and that product is not zero. *)
Theorem calculate_sample_size_value_needs
    (R : routine) (es os : Q) (spt : Z) (uc : bool) (icc : Q) :
  (forall e, tt_ind_solve_power R (nobs_question es) = Err e ->
             run R (calculate_sample_size es os spt uc icc) = Err e) /\
  (inject_Z spt * os == 0 ->
   exists e, run R (calculate_sample_size es os spt uc icc) = Err e) /\
  (forall total,
     run R (calculate_sample_size es os spt uc icc) = Ok total ->
     (exists n, tt_ind_solve_power R (nobs_question es) = Ok n) /\
     ~ inject_Z spt * os == 0).
Proof.
  split; [|split].
  - intros e Hn. apply calculate_sample_size_run_err. exact Hn.
  - intro Hz.
    destruct (tt_ind_solve_power R (nobs_question es)) as [n | e] eqn:Hn.
    + exists ZeroDivisionError.
      apply (calculate_sample_size_run_zero R es os spt uc icc n Hz Hn).
    + exists e. apply calculate_sample_size_run_err. exact Hn.
  - intros total Hrun.
    destruct (tt_ind_solve_power R (nobs_question es)) as [n | e] eqn:Hn.
    + split; [exists n; reflexivity|].
      intro Hz.
      rewrite (calculate_sample_size_run_zero R es os spt uc icc n Hz Hn)
        in Hrun.
      discriminate Hrun.
    + rewrite (calculate_sample_size_run_err R es os spt uc icc e Hn) in Hrun.
      discriminate Hrun.
Qed.

(** X7.  For a positive outcome share, at least one student per teacher
    and a non-negative answer of the solver, a larger outcome share never
    raises the total of [calculate_sample_size], and switching clustering
    on never lowers it. *)
Theorem calculate_sample_size_share_and_clustering
    (R : routine) (es os1 os2 : Q) (spt : Z) (uc : bool) (icc n : Q) :
  0 < os1 -> os1 <= os2 -> (1 <= spt)%Z ->
  tt_ind_solve_power R (nobs_question es) = Ok n -> 0 <= n ->
  (exists t1 t2,
     run R (calculate_sample_size es os1 spt uc icc) = Ok t1 /\
     run R (calculate_sample_size es os2 spt uc icc) = Ok t2 /\
     (t2 <= t1)%Z) /\
  (exists t_off t_on,
     run R (calculate_sample_size es os1 spt false icc) = Ok t_off /\
     run R (calculate_sample_size es os1 spt true icc) = Ok t_on /\
     (t_off <= t_on)%Z).
Proof.
  intros Ho1 Ho12 Hs Hn Hn0.
  assert (Ho2 : 0 < os2) by lra.
  pose proof (divisor_pos spt os1 Hs Ho1) as Hd1.
  pose proof (divisor_pos spt os2 Hs Ho2) as Hd2.
  pose proof (divisor_nonzero spt os1 Hs Ho1) as Hz1.
  pose proof (divisor_nonzero spt os2 Hs Ho2) as Hz2.
  split.
  - pose proof (sample_size_deff_ge1 spt uc icc Hs) as Hdeff.
    rewrite (calculate_sample_size_run R es os1 spt uc icc n Hz1 Hn).
    rewrite (calculate_sample_size_run R es os2 spt uc icc n Hz2 Hn).
    do 2 eexists. split; [reflexivity|]. split; [reflexivity|].
    apply Z.mul_le_mono_nonneg_r; [lia|].
    apply Qceiling_resp_le.
    apply quotient_antitone; [nra | exact Hd1|].
    apply inject_Z_ge1 in Hs. nra.
  - pose proof (sample_size_deff_ge1 spt true icc Hs) as Hdeff.
    rewrite (calculate_sample_size_run R es os1 spt false icc n Hz1 Hn).
    rewrite (calculate_sample_size_run R es os1 spt true icc n Hz1 Hn).
    do 2 eexists. split; [reflexivity|]. split; [reflexivity|].
    apply Z.mul_le_mono_nonneg_r; [lia|].
    apply Qceiling_resp_le.
    change (sample_size_deff spt false icc) with 1.
    apply quotient_le; [nra | exact Hd1].
Qed.

Lemma calculate_sample_size_share_and_clustering_witness :
  exists t1 t2,
    run stub (calculate_sample_size (12 # 100) (1 # 2) 22 true (1 # 5))
      = Ok t1 /\
    run stub (calculate_sample_size (12 # 100) 1 22 true (1 # 5)) = Ok t2 /\
    (t2 <= t1)%Z.
Proof.
  exact (proj1 (calculate_sample_size_share_and_clustering stub (12 # 100)
                  (1 # 2) 1 22 true (1 # 5) _
                  ltac:(lra) ltac:(lra) ltac:(lia) eq_refl
                  ltac:(vm_compute; discriminate))).
Defined.



(** ** The table of the power mode *)

Section ResultsLoop.

Variable R : routine.
Variable x : Q.
Variable call : Q -> prog Q.
Hypothesis call_asks :
  forall es, call es = Call_solve_power (power_question es x) Ret.

Lemma results_loop_step (es : Q) (rest : list Q) (acc : list row) :
  run R (results_loop call (es :: rest) acc)
  = match solve_power R (power_question es x) with
    | Ok p => run R (results_loop call rest
                       (acc ++ [{| Effect_Size := es; Power := p |}]))
    | Err e => Err e
    end.
Proof.
  simpl. rewrite run_bind, call_asks, run_solve_power_ret. reflexivity.
Qed.

Lemma results_loop_ok (l : list Q) :
  forall acc rows,
    run R (results_loop call l acc) = Ok rows ->
    exists rs,
      rows = acc ++ rs /\ map Effect_Size rs = l /\
      Forall (fun r => solve_power R (power_question (Effect_Size r) x)
                       = Ok (Power r)) rs.
Proof.
  induction l as [| es rest IH]; intros acc rows H.
  - simpl in H. injection H as <-. exists [].
    rewrite app_nil_r. repeat split. constructor.
  - rewrite results_loop_step in H.
    destruct (solve_power R (power_question es x)) as [p | e] eqn:E;
      [|discriminate H].
    destruct (IH _ _ H) as [rs [-> [Hm Hf]]].
    exists ({| Effect_Size := es; Power := p |} :: rs).
    split; [rewrite <- app_assoc; reflexivity|].
    split; [simpl; f_equal; exact Hm|].
    constructor; [exact E | exact Hf].
Qed.

Lemma results_loop_err (l : list Q) :
  forall acc e,
    run R (results_loop call l acc) = Err e ->
    exists es, In es l /\ solve_power R (power_question es x) = Err e.
Proof.
  induction l as [| es rest IH]; intros acc e H.
  - simpl in H. discriminate H.
  - rewrite results_loop_step in H.
    destruct (solve_power R (power_question es x)) as [p | e'] eqn:E.
    + destruct (IH _ _ H) as [es' [Hin He]].
      exists es'. split; [right; exact Hin | exact He].
    + injection H as <-. exists es. split; [left; reflexivity | exact E].
Qed.

Lemma results_loop_total (l : list Q) :
  forall acc,
    (forall es, In es l ->
                exists p, solve_power R (power_question es x) = Ok p) ->
    exists rows, run R (results_loop call l acc) = Ok rows.
Proof.
  induction l as [| es rest IH]; intros acc H.
  - exists acc. reflexivity.
  - rewrite results_loop_step.
    destruct (H es (or_introl eq_refl)) as [p ->].
    apply IH. intros es' Hin. apply H. right. exact Hin.
Qed.

End ResultsLoop.

Lemma power_mode_call
    (n_teachers : Z) (os : Q) (use_clustering : string) (icc : Q) :
  exists x,
    x == inject_Z (py_int (inject_Z n_teachers * os)) * 22
         / sample_size_deff 22 (String.eqb use_clustering "Yes")
             (if String.eqb use_clustering "Yes" then icc else 0) /\
    forall es,
      calculate_power n_teachers os es default_students_per_teacher
        (String.eqb use_clustering "Yes")
        (if String.eqb use_clustering "Yes" then icc else 0)
      = Call_solve_power (power_question es x) Ret.
Proof.
  apply (calculate_power_question_uniform n_teachers os 22). lia.
Qed.

Lemma np_arange_nth (start stop step : Q) (i : nat) (v : Q) :
  nth_error (np_arange start stop step) i = Some v ->
  v = start + inject_Z (Z.of_nat i) * step.
Proof.
  unfold np_arange. rewrite nth_error_map, nth_error_seq.
  destruct (i <? _)%nat; simpl; intro H; [|discriminate H].
  injection H as <-. reflexivity.
Qed.

Lemma color_power_green (val : Q) :
  color_power val = "color: green"%string <-> 8 # 10 <= val.
Proof.
  unfold color_power.
  destruct (Qle_bool (8 # 10) val) eqn:E; simpl.
  - apply Qle_bool_iff in E. split; [intros _; exact E | reflexivity].
  - split; [intro H; discriminate H|].
    intro H. apply Qle_bool_iff in H. congruence.
Qed.

Lemma power_mode_results_shape
    (R : routine) (n_teachers : Z) (os : Q) (use_clustering : string)
    (icc : Q) (rows : list row) :
  run R (power_mode_results n_teachers os use_clustering icc) = Ok rows ->
  map Effect_Size rows = np_arange (3 # 100) (25 # 100) (3 # 100) /\
  exists x,
    Forall (fun r => solve_power R (power_question (Effect_Size r) x)
                     = Ok (Power r)) rows.
Proof.
  intro H.
  destruct (power_mode_call n_teachers os use_clustering icc)
    as [x [_ Hcall]].
  unfold power_mode_results in H.
  destruct (results_loop_ok R x _ Hcall _ _ _ H) as [rs [-> [Hm Hf]]].
  simpl. split; [exact Hm | exists x; exact Hf].
Qed.

(** X9.  When the loop of the power mode completes, [results] has one
    entry per effect size of [np.arange(0.03, 0.25, 0.03)], in that order,
    eight in all, and the power of every entry is the answer of
    statsmodels for that effect size at one and the same per-arm
    observation count, [int(n_teachers * outcome_share) * 22 / deff]. *)
Theorem power_mode_results_table
    (R : routine) (n_teachers : Z) (os : Q) (use_clustering : string)
    (icc : Q) (rows : list row) :
  run R (power_mode_results n_teachers os use_clustering icc) = Ok rows ->
  map Effect_Size rows = np_arange (3 # 100) (25 # 100) (3 # 100) /\
  length rows = 8%nat /\
  exists x,
    x == inject_Z (py_int (inject_Z n_teachers * os)) * 22
         / sample_size_deff 22 (String.eqb use_clustering "Yes")
             (if String.eqb use_clustering "Yes" then icc else 0) /\
    Forall (fun r => solve_power R (power_question (Effect_Size r) x)
                     = Ok (Power r)) rows.
Proof.
  intro H.
  destruct (power_mode_call n_teachers os use_clustering icc)
    as [x [Hx Hcall]].
  unfold power_mode_results in H.
  destruct (results_loop_ok R x _ Hcall _ _ _ H) as [rs [-> [Hm Hf]]].
  simpl. split; [exact Hm|]. split.
  - rewrite <- (length_map Effect_Size), Hm. reflexivity.
  - exists x. split; [exact Hx | exact Hf].
Qed.

Lemma power_mode_results_table_witness :
  match run stub (power_mode_results 25 1 "No" 0) with
  | Ok rows => length rows = 8%nat
  | Err _ => False
  end.
Proof.
  destruct (run stub (power_mode_results 25 1 "No" 0)) as [rows | e] eqn:H.
  - exact (proj1 (proj2 (power_mode_results_table stub 25 1 "No" 0 rows H))).
  - vm_compute in H. discriminate H.
Defined.

(** X10.  The table of the power mode is all or nothing: the loop
    completes exactly when statsmodels answers for every effect size of
    the sweep, and when it does not complete the exception is one that
    statsmodels raised for an effect size of the sweep. *)
Theorem power_mode_results_all_or_nothing
    (R : routine) (n_teachers : Z) (os : Q) (use_clustering : string)
    (icc : Q) :
  exists x,
    x == inject_Z (py_int (inject_Z n_teachers * os)) * 22
         / sample_size_deff 22 (String.eqb use_clustering "Yes")
             (if String.eqb use_clustering "Yes" then icc else 0) /\
    ((exists rows,
        run R (power_mode_results n_teachers os use_clustering icc)
        = Ok rows) <->
     (forall es, In es (np_arange (3 # 100) (25 # 100) (3 # 100)) ->
        exists p, solve_power R (power_question es x) = Ok p)) /\
    (forall e,
       run R (power_mode_results n_teachers os use_clustering icc) = Err e ->
       exists es, In es (np_arange (3 # 100) (25 # 100) (3 # 100)) /\
                  solve_power R (power_question es x) = Err e).
Proof.
  destruct (power_mode_call n_teachers os use_clustering icc)
    as [x [Hx Hcall]].
  exists x. split; [exact Hx|]. unfold power_mode_results. split.
  - split.
    + intros [rows H] es Hin.
      destruct (results_loop_ok R x _ Hcall _ _ _ H) as [rs [_ [Hm Hf]]].
      rewrite <- Hm in Hin. apply in_map_iff in Hin.
      destruct Hin as [r [<- Hr]].
      rewrite Forall_forall in Hf. exists (Power r). apply Hf. exact Hr.
    + intro H. apply (results_loop_total R x _ Hcall). exact H.
  - intros e H. apply (results_loop_err R x _ Hcall _ _ _ H).
Qed.

Lemma stub_power_monotone_effect_size (es1 es2 nobs1 p1 p2 : Q) :
  0 <= es1 -> es1 <= es2 ->
  solve_power stub (power_question es1 nobs1) = Ok p1 ->
  solve_power stub (power_question es2 nobs1) = Ok p2 -> p1 <= p2.
Proof.
  intros H0 H12. simpl. unfold stub_solve_power. simpl.
  assert (Hsq1 : 0 <= es1 * es1) by nra.
  assert (Hsq : es1 * es1 <= es2 * es2) by nra.
  destruct (Qle_bool (es1 * es1 * nobs1) 0) eqn:E1;
    destruct (Qle_bool (es2 * es2 * nobs1) 0) eqn:E2;
    intros H1 H2; injection H1 as <-; injection H2 as <-.
  - lra.
  - assert (Hb : 0 < es2 * es2 * nobs1).
    { apply Qnot_le_lt. intro Hle. apply Qle_bool_iff in Hle. congruence. }
    assert (0 <= es2 * es2 * nobs1 / (es2 * es2 * nobs1 + stub_c))
      by (apply quotient_nonneg; unfold stub_c; lra).
    lra.
  - apply Qle_bool_iff in E2.
    assert (Ha : 0 < es1 * es1 * nobs1).
    { apply Qnot_le_lt. intro Hle. apply Qle_bool_iff in Hle. congruence. }
    destruct (Qlt_le_dec 0 nobs1) as [Hn | Hn]; nra.
  - assert (Ha : 0 < es1 * es1 * nobs1).
    { apply Qnot_le_lt. intro Hle. apply Qle_bool_iff in Hle. congruence. }
    assert (Hx : es1 * es1 * nobs1 <= es2 * es2 * nobs1).
    { destruct (Qlt_le_dec 0 nobs1) as [Hn | Hn]; nra. }
    pose proof (stub_fraction_monotone _ _ Ha Hx). lra.
Qed.

(** X11.  When the power of statsmodels does not decrease with the effect
    size, the power column of the table does not decrease from one entry
    to the next, and once [color_power] paints an entry green it paints
    every later entry green. *)
Theorem power_mode_results_sorted
    (R : routine) (n_teachers : Z) (os : Q) (use_clustering : string)
    (icc : Q) (rows : list row) :
  (forall es1 es2 nobs1 p1 p2, 0 <= es1 -> es1 <= es2 ->
     solve_power R (power_question es1 nobs1) = Ok p1 ->
     solve_power R (power_question es2 nobs1) = Ok p2 -> p1 <= p2) ->
  run R (power_mode_results n_teachers os use_clustering icc) = Ok rows ->
  forall i j ri rj, (i <= j)%nat ->
    nth_error rows i = Some ri -> nth_error rows j = Some rj ->
    Power ri <= Power rj /\
    (color_power (Power ri) = "color: green"%string ->
     color_power (Power rj) = "color: green"%string).
Proof.
  intros Hmono H i j ri rj Hij Hi Hj.
  destruct (power_mode_results_shape R n_teachers os use_clustering icc rows H)
    as [Hm [x Hf]].
  rewrite Forall_forall in Hf.
  pose proof (Hf _ (nth_error_In _ _ Hi)) as Hpi.
  pose proof (Hf _ (nth_error_In _ _ Hj)) as Hpj.
  pose proof (map_nth_error Effect_Size _ _ Hi) as Hei.
  pose proof (map_nth_error Effect_Size _ _ Hj) as Hej.
  rewrite Hm in Hei, Hej.
  apply np_arange_nth in Hei. apply np_arange_nth in Hej.
  assert (Hz0 : 0 <= inject_Z (Z.of_nat i))
    by (apply inject_Z_nonneg; lia).
  assert (Hz : inject_Z (Z.of_nat i) <= inject_Z (Z.of_nat j))
    by (apply inject_Z_le; lia).
  assert (He0 : 0 <= Effect_Size ri) by (rewrite Hei; nra).
  assert (Hes : Effect_Size ri <= Effect_Size rj)
    by (rewrite Hei, Hej; nra).
  pose proof (Hmono _ _ _ _ _ He0 Hes Hpi Hpj) as Hle.
  split; [exact Hle|].
  rewrite !color_power_green. lra.
Qed.

Lemma power_mode_results_sorted_witness :
  match run stub (power_mode_results 25 1 "Yes" (1 # 5)) with
  | Ok rows =>
      forall r0 r7,
        nth_error rows 0 = Some r0 -> nth_error rows 7 = Some r7 ->
        Power r0 <= Power r7
  | Err _ => False
  end.
Proof.
  destruct (run stub (power_mode_results 25 1 "Yes" (1 # 5)))
    as [rows | e] eqn:H.
  - intros r0 r7 H0 H7.
    apply (power_mode_results_sorted stub 25 1 "Yes" (1 # 5) rows
             stub_power_monotone_effect_size H 0%nat 7%nat r0 r7);
      [lia | exact H0 | exact H7].
  - vm_compute in H. discriminate H.
Defined.

(** ** The sliders at their lower end *)

(** X12.  In the sample-size mode, once statsmodels has answered, the
    script obtains a number of required teachers for every position of
    the outcome-share slider but 0, and at 0 the call raises
    [ZeroDivisionError]. *)
Theorem required_teachers_slider
    (R : routine) (es : Q) (percentage : Z) (use_clustering : string)
    (icc n : Q) :
  tt_ind_solve_power R (nobs_question es) = Ok n ->
  (percentage = 0%Z ->
   run R (required_teachers es (outcome_share_of_slider percentage)
            use_clustering icc) = Err ZeroDivisionError) /\
  (percentage <> 0%Z ->
   exists total,
     run R (required_teachers es (outcome_share_of_slider percentage)
              use_clustering icc) = Ok total).
Proof.
  intro Hn. unfold required_teachers, default_students_per_teacher. split.
  - intros ->.
    apply (calculate_sample_size_run_zero R es _ 22 _ _ n); [|exact Hn].
    reflexivity.
  - intro Hp.
    assert (Hq : ~ inject_Z percentage == 0).
    { intro H. apply Hp. unfold Qeq in H. simpl in H. lia. }
    assert (Hz : ~ inject_Z 22 * outcome_share_of_slider percentage == 0).
    { unfold outcome_share_of_slider. intro H. apply Hq.
      setoid_replace (inject_Z percentage)
        with (inject_Z 22 * (inject_Z percentage / 100) * (100 # 22))
        by (change (inject_Z 22) with 22; field).
      rewrite H. reflexivity. }
    eexists. apply calculate_sample_size_run; [exact Hz | exact Hn].
Qed.

Lemma required_teachers_slider_witness :
  run stub (required_teachers (12 # 100) (outcome_share_of_slider 0)
              "No" 0) = Err ZeroDivisionError /\
  exists total,
    run stub (required_teachers (12 # 100) (outcome_share_of_slider 1)
                "No" 0) = Ok total.
Proof.
  split.
  - apply (required_teachers_slider stub (12 # 100) 0 "No" 0 _ eq_refl).
    reflexivity.
  - apply (required_teachers_slider stub (12 # 100) 1 "No" 0 _ eq_refl).
    discriminate.
Defined.

(** X13.  With no fellow at all, or with an outcome share of zero,
    [calculate_power] still consults statsmodels, and the per-arm
    observation count it hands over is zero. *)
Theorem calculate_power_no_observations
    (n_teachers : Z) (os es : Q) (spt : Z) (uc : bool) (icc : Q) :
  (1 <= spt)%Z -> n_teachers = 0%Z \/ os == 0 ->
  exists q,
    asked_power (calculate_power n_teachers os es spt uc icc) = Some q /\
    pq_nobs1 q == 0 /\
    forall R, run R (calculate_power n_teachers os es spt uc icc)
              = solve_power R q.
Proof.
  intros Hs Hzero.
  destruct (calculate_power_question n_teachers os es spt uc icc Hs)
    as [x [Hp Hx]].
  exists (power_question es x). rewrite Hp. simpl.
  split; [reflexivity|]. split.
  - assert (Hprod : inject_Z n_teachers * os == 0).
    { destruct Hzero as [-> | Ho]; [|rewrite Ho]; ring. }
    assert (Hk : py_int (inject_Z n_teachers * os) = 0%Z).
    { assert (H0 : 0 <= inject_Z n_teachers * os) by lra.
      rewrite (py_int_nonneg_floor _ H0).
      rewrite (Qfloor_comp _ _ Hprod). reflexivity. }
    rewrite Hx, Hk. unfold Qdiv. ring.
  - intro R. destruct (solve_power R (power_question es x)); reflexivity.
Qed.

Lemma calculate_power_no_observations_witness :
  exists q,
    asked_power (calculate_power 25 0 (12 # 100) 22 true (1 # 5)) = Some q /\
    pq_nobs1 q == 0.
Proof.
  destruct (calculate_power_no_observations 25 0 (12 # 100) 22 true (1 # 5)
              ltac:(lia) (or_intror (Qeq_refl 0)))
    as [q [Ha [H0 _]]].
  exists q. split; [exact Ha | exact H0].
Defined.
